(** * accOrientation: vector algebra, rotations and orientation basis

    A shallow embedding of [accOrientation.c] / [accOrientation.h].

    The C code works on [float] fields (IEEE-754 binary32), with [double]
    (binary64) intermediates and one [int] local.  Both formats are
    modelled with the Standard Library's [spec_float] and its
    round-to-nearest-even operations, instantiated at (prec, emax) =
    (24, 128) and (53, 1024).  Conventions of the embedding:

    - every operation is evaluated in the type C's usual arithmetic
      conversions give it (FLT_EVAL_METHOD = 0, no contraction into fused
      multiply-add);
    - IEC 60559 arithmetic (Annex F): division by zero gives an infinity
      or a NaN, nothing traps;
    - [cos] and [sin] of <math.h>, and the [int] produced by converting a
      NaN, an infinity or an out-of-range [double] (as a function of the
      value converted), are not fixed by the source: they are the fields
      of a [Platform];
    - out-parameters ([Vector *outputV]) become results; the caller's
      output object is assumed not to overlap the inputs.                *)

From Stdlib Require Import ZArith QArith Qround Bool Lia List.
From Stdlib Require Import Floats.SpecFloat.
Import ListNotations.

Local Open Scope Z_scope.

(** C's [int]; written [int] because the field [Z] of [Vector] takes the
    short name of the integers further down. *)
Abbreviation int := BinNums.Z (only parsing).

(** ** IEEE-754 formats *)

Definition float32 := spec_float.
Definition float64 := spec_float.

Definition pzero : spec_float := S754_zero false.

Module F32.
Definition prec := 24.
Definition emax := 128.
Definition add : float32 -> float32 -> float32 := SFadd prec emax.
Definition sub : float32 -> float32 -> float32 := SFsub prec emax.
Definition mul : float32 -> float32 -> float32 := SFmul prec emax.
Definition div : float32 -> float32 -> float32 := SFdiv prec emax.
Definition sqrt : float32 -> float32 := SFsqrt prec emax.
Definition opp : float32 -> float32 := SFopp.
(** rounding of the dyadic number [m * 2^e] to the format *)
Definition of_dyadic (m e : int) : float32 := binary_normalize prec emax m e false.
(** [(float) n] for an [int] n *)
Definition of_int (n : int) : float32 := of_dyadic n 0.
End F32.

Module F64.
Definition prec := 53.
Definition emax := 1024.
Definition add : float64 -> float64 -> float64 := SFadd prec emax.
Definition sub : float64 -> float64 -> float64 := SFsub prec emax.
Definition mul : float64 -> float64 -> float64 := SFmul prec emax.
Definition div : float64 -> float64 -> float64 := SFdiv prec emax.
Definition ltb : float64 -> float64 -> bool := SFltb.
Definition of_dyadic (m e : int) : float64 := binary_normalize prec emax m e false.
(** [(double) n] for an [int] n *)
Definition of_int (n : int) : float64 := of_dyadic n 0.
End F64.

(** Conversion between the formats: the special values are kept, a finite
    number is rounded to the target format (exactly, from [float] to
    [double]). *)
Definition convert (prec emax : int) (x : spec_float) : spec_float :=
  match x with
  | S754_finite s m e => binary_normalize prec emax (cond_Zopp s (Zpos m)) e s
  | _ => x
  end.

(** [(double) x] for a [float] x *)
Definition to_double (x : float32) : float64 := convert F64.prec F64.emax x.
(** [(float) x] for a [double] x *)
Definition to_float (x : float64) : float32 := convert F32.prec F32.emax x.

(** The integral part of a finite number (truncation toward zero). *)
Definition integral_part (x : spec_float) : option int :=
  match x with
  | S754_zero _ => Some 0
  | S754_finite s m e =>
      Some (cond_Zopp s (if 0 <=? e then Zpos m * 2 ^ e else Zpos m / 2 ^ (- e)))
  | _ => None
  end.

Definition INT_MIN := - 2 ^ 31.
Definition INT_MAX := 2 ^ 31 - 1.

(** What the source leaves to the C implementation. *)
Record Platform := {
  cos : float64 -> float64;
  sin : float64 -> float64;
  (** the [int] obtained from a [double] that has no integral part in
      range, whatever the implementation makes of it for that value
      (undefined in C, unspecified under Annex F.4: INT_MIN on x86, 0 for
      a NaN and the nearest bound for the others on saturating targets) *)
  int_indefinite : float64 -> int
}.

(** [int n = d;] for a [double] d *)
Definition to_int (P : Platform) (d : float64) : int :=
  match integral_part d with
  | Some n => if (INT_MIN <=? n) && (n <=? INT_MAX) then n else int_indefinite P d
  | None => int_indefinite P d
  end.

(** The exact value of a finite number, as a rational (0 for the others). *)
Definition SF2Q (x : spec_float) : Q :=
  match x with
  | S754_finite s m e =>
      if 0 <=? e then inject_Z (cond_Zopp s (Zpos m * 2 ^ e))
      else Qmake (cond_Zopp s (Zpos m)) (Z.to_pos (2 ^ (- e)))
  | _ => 0%Q
  end.

Definition is_finite (x : spec_float) : bool :=
  match x with
  | S754_zero _ | S754_finite _ _ _ => true
  | _ => false
  end.

Definition is_zero (x : spec_float) : bool :=
  match x with
  | S754_zero _ => true
  | _ => false
  end.

Definition is_nan (x : spec_float) : bool :=
  match x with
  | S754_nan => true
  | _ => false
  end.

(** Strictly negative: what [x < 0] tests. *)
Definition is_negative (x : spec_float) : bool :=
  match x with
  | S754_finite true _ _ | S754_infinity true => true
  | _ => false
  end.

(** ** accOrientation.h *)

Record Vector := mkVector { X : float32; Y : float32; Z : float32 }.

Record Orientation := mkOrientation {
  vUp : Vector;
  vFront : Vector;
  vRight : Vector
}.

Record OrientationMagnitude := mkOrientationMagnitude {
  UP : float32;
  FRONT : float32;
  RIGHT : float32
}.

(** ** accOrientation.c *)

(** [#define PI 3.1415]: the double nearest to 31415/10000. *)
Definition PI : float64 := F64.div (F64.of_int 31415) (F64.of_int 10000).

Definition vectorMagnitude (v : Vector) : float64 :=
  to_double
    (F32.sqrt (F32.add (F32.add (F32.mul (X v) (X v)) (F32.mul (Y v) (Y v)))
                       (F32.mul (Z v) (Z v)))).

Definition unitVector (P : Platform) (inputV : Vector) : Vector :=
  let vm := to_int P (vectorMagnitude inputV) in
  {| X := F32.div (X inputV) (F32.of_int vm);
     Y := F32.div (Y inputV) (F32.of_int vm);
     Z := F32.div (Z inputV) (F32.of_int vm) |}.

Definition dotProduct (v1 v2 : Vector) : float64 :=
  to_double
    (F32.add (F32.add (F32.mul (X v1) (X v2)) (F32.mul (Y v1) (Y v2)))
             (F32.mul (Z v1) (Z v2))).

Definition subtractVectors (v1 v2 : Vector) : Vector :=
  {| X := F32.sub (X v1) (X v2);
     Y := F32.sub (Y v1) (Y v2);
     Z := F32.sub (Z v1) (Z v2) |}.

Definition crossProduct (v1 v2 : Vector) : Vector :=
  {| X := F32.sub (F32.mul (Y v1) (Z v2)) (F32.mul (Z v1) (Y v2));
     Y := F32.sub (F32.mul (Z v1) (X v2)) (F32.mul (X v1) (Z v2));
     Z := F32.sub (F32.mul (X v1) (Y v2)) (F32.mul (Y v1) (X v2)) |}.

Definition isVectorsInOppositeDirection (v1 v2 : Vector) : bool :=
  F64.ltb (dotProduct v1 v2) (F64.of_int 0).

(** [angle*(PI/180.0)]; [PI/180] in [rotateVectorAroundAnotherVector]
    converts the [int] 180 to the same [double]. *)
Definition radians (angle : int) : float64 :=
  F64.mul (F64.of_int angle) (F64.div PI (F64.of_int 180)).

Definition rotateVectorThroughAnotherVector
    (P : Platform) (v1 v2 : Vector) (angle : int) : Vector :=
  let e1 := unitVector P v1 in
  let c1 := dotProduct v2 e1 in
  let u2 :=
    {| X := to_float (F64.sub (to_double (X v2)) (F64.mul c1 (to_double (X e1))));
       Y := to_float (F64.sub (to_double (Y v2)) (F64.mul c1 (to_double (Y e1))));
       Z := to_float (F64.sub (to_double (Z v2)) (F64.mul c1 (to_double (Z e1)))) |} in
  let e2 := unitVector P u2 in
  let v1_m := vectorMagnitude v1 in
  let rad := radians angle in
  let cosRad := cos P rad in
  let sinRad := sin P rad in
  let comp (a b : float32) : float32 :=
    to_float (F64.add (F64.mul (F64.mul v1_m cosRad) (to_double a))
                      (F64.mul (F64.mul v1_m sinRad) (to_double b))) in
  {| X := comp (X e1) (X e2);
     Y := comp (Y e1) (Y e2);
     Z := comp (Z e1) (Z e2) |}.

Definition vectorComponentParallelToAnotherVector (v1 v2 : Vector) : Vector :=
  let aux := F64.div (dotProduct v1 v2) (dotProduct v2 v2) in
  {| X := to_float (F64.mul aux (to_double (X v2)));
     Y := to_float (F64.mul aux (to_double (Y v2)));
     Z := to_float (F64.mul aux (to_double (Z v2))) |}.

Definition rotateVectorAroundAnotherVector
    (P : Platform) (v1 v2 : Vector) (angle : int) : Vector :=
  let rad := radians angle in
  let paralelToV2 := vectorComponentParallelToAnotherVector v1 v2 in
  let perpendicularToV2 := subtractVectors v1 paralelToV2 in
  let w := crossProduct v2 perpendicularToV2 in
  let perpendicularToV2_mag := vectorMagnitude perpendicularToV2 in
  let w_mag := vectorMagnitude w in
  let cosRad := cos P rad in
  let sinRad := sin P rad in
  let comp (par perp wc : float32) : float32 :=
    to_float
      (F64.add (F64.add (to_double par) (F64.mul (to_double perp) cosRad))
               (F64.mul (F64.mul perpendicularToV2_mag (F64.div (to_double wc) w_mag))
                        sinRad)) in
  {| X := comp (X paralelToV2) (X perpendicularToV2) (X w);
     Y := comp (Y paralelToV2) (Y perpendicularToV2) (Y w);
     Z := comp (Z paralelToV2) (Z perpendicularToV2) (Z w) |}.

Definition findOrientation (P : Platform) (vUp0 vUpFront : Vector) : Orientation :=
  let front := rotateVectorThroughAnotherVector P vUp0 vUpFront 90 in
  let right := rotateVectorAroundAnotherVector P vUp0 front 90 in
  {| vUp := vUp0; vFront := front; vRight := right |}.

Definition findVectorComponentsInTheOrientation
    (v : Vector) (orientation : Orientation) : Orientation :=
  {| vUp := vectorComponentParallelToAnotherVector v (vUp orientation);
     vFront := vectorComponentParallelToAnotherVector v (vFront orientation);
     vRight := vectorComponentParallelToAnotherVector v (vRight orientation) |}.

(** One axis of [findVectorsMagnitudeInTheOrientation]: the magnitude of
    the component, negated when it points against the axis. *)
Definition signedMagnitude (axis component : Vector) : float32 :=
  let g := to_float (vectorMagnitude component) in
  if isVectorsInOppositeDirection axis component then F32.opp g else g.

Definition findVectorsMagnitudeInTheOrientation
    (v : Vector) (orientation : Orientation) : OrientationMagnitude :=
  let vComponents := findVectorComponentsInTheOrientation v orientation in
  {| UP := signedMagnitude (vUp orientation) (vUp vComponents);
     FRONT := signedMagnitude (vFront orientation) (vFront vComponents);
     RIGHT := signedMagnitude (vRight orientation) (vRight vComponents) |}.

(** Literals used below. *)
Definition f32 (m e : int) : float32 := F32.of_dyadic m e.
Definition vec (x y z : float32) : Vector := {| X := x; Y := y; Z := z |}.

(** ** A reference platform

    An instance of [Platform] to evaluate the program with: [cos] and [sin]
    by argument reduction modulo 2*pi and Taylor series in fixed point with
    [frac_bits] fractional bits, rounded once to binary64 at the end; the
    [int] of an invalid conversion is INT_MIN, as on x86.  It is meant for
    the arguments the program passes, [radians angle] for an [int] angle. *)
Module RefLibm.
Definition frac_bits := 192.

(** floor (pi * 2^256) *)
Definition pi_256 : int :=
  0x3243f6a8885a308d313198a2e03707344a4093822299f31d0082efa98ec4e6c89.

Definition two_pi : int := pi_256 / 2 ^ (256 - frac_bits - 1).

(** [m * 2^e] in fixed point *)
Definition to_fixed (s : bool) (m : positive) (e : int) : int :=
  cond_Zopp s (Z.shiftl (Zpos m) (e + frac_bits)).

(** the representative of [x] modulo 2*pi nearest to 0 *)
Definition reduce (x : int) : int :=
  x - ((2 * x + two_pi) / (2 * two_pi)) * two_pi.

(** [n] further terms of the series, [k] the index of the last factorial
    factor used in [term] *)
Fixpoint series (n : nat) (k term r2 acc : int) : int :=
  match n with
  | O => acc
  | S n' =>
      let term' := - (Z.shiftr (term * r2) frac_bits) / ((k + 1) * (k + 2)) in
      series n' (k + 2) term' r2 (acc + term')
  end.

Definition terms := 48%nat.

Definition cos_fixed (r : int) : int :=
  let one := 2 ^ frac_bits in
  series terms 0 one (Z.shiftr (r * r) frac_bits) one.

Definition sin_fixed (r : int) : int :=
  series terms 1 r (Z.shiftr (r * r) frac_bits) r.

(** below 2^-27 in magnitude, [cos x] rounds to 1 and [sin x] to [x] *)
Definition tiny (m : positive) (e : int) : bool :=
  Zpos (digits2_pos m) + e <? - 27.

Definition cos (x : float64) : float64 :=
  match x with
  | S754_zero _ => F64.of_int 1
  | S754_finite s m e =>
      if tiny m e then F64.of_int 1
      else F64.of_dyadic (cos_fixed (reduce (to_fixed s m e))) (- frac_bits)
  | _ => S754_nan
  end.

Definition sin (x : float64) : float64 :=
  match x with
  | S754_zero _ => x
  | S754_finite s m e =>
      if tiny m e then x
      else F64.of_dyadic (sin_fixed (reduce (to_fixed s m e))) (- frac_bits)
  | _ => S754_nan
  end.
End RefLibm.

Definition ref_platform : Platform :=
  {| cos := RefLibm.cos; sin := RefLibm.sin; int_indefinite := fun _ => INT_MIN |}.

Definition f64 (m e : int) : float64 := F64.of_dyadic m e.

(** Named values of the statements below. *)
Definition nan_vector : Vector := vec S754_nan S754_nan S754_nan.

Definition zero_vector (v : Vector) : Prop :=
  is_zero (X v) = true /\ is_zero (Y v) = true /\ is_zero (Z v) = true.

Definition finite_vector (v : Vector) : Prop :=
  is_finite (X v) = true /\ is_finite (Y v) = true /\ is_finite (Z v) = true.

(** What IEEE division of [x] by +0 gives. *)
Definition divided_by_zero (x : float32) : float32 :=
  match x with
  | S754_finite s _ _ | S754_infinity s => S754_infinity s
  | _ => S754_nan
  end.

(** The same number: the same datum, or two zeros (which compare equal
    whatever their signs). *)
Definition same_number (x y : spec_float) : Prop :=
  x = y \/ (is_zero x = true /\ is_zero y = true).

(** Annex F.10.1: cos(+-0) is 1 and sin(+-0) is +-0. *)
Definition annex_F (P : Platform) : Prop :=
  cos P pzero = F64.of_int 1 /\ sin P pzero = pzero.

(** The input vectors of the examples. *)
Definition v_half_x : Vector := vec (f32 1 (-1)) pzero pzero.
Definition v_x : Vector := vec (f32 1 0) pzero pzero.
Definition v_y : Vector := vec pzero (f32 1 0) pzero.
Definition v_z : Vector := vec pzero pzero (f32 1 0).
Definition v_15_x : Vector := vec (f32 3 (-1)) pzero pzero.
Definition v_15_y : Vector := vec pzero (f32 3 (-1)) pzero.
Definition v_15_z : Vector := vec pzero pzero (f32 3 (-1)).
Definition v_15_xz : Vector := vec (f32 3 (-1)) pzero (f32 3 (-1)).
Definition v_half_z : Vector := vec pzero pzero (f32 1 (-1)).
Definition v_half_xz : Vector := vec (f32 1 (-1)) pzero (f32 1 (-1)).

(** The values of a correctly rounded [cos] and [sin] at [radians 90] and
    at [radians 360]. *)
Definition quarter_turn_values (P : Platform) : Prop :=
  cos P (radians 90) = f64 6836628231246550 (-67) /\
  sin P (radians 90) = f64 9007199245075493 (-53).

Definition full_turn_values (P : Platform) : Prop :=
  cos P (radians 360) = f64 9007199100093007 (-53) /\
  sin P (radians 360) = f64 (-6836628194565101) (-65).

(** The orientation the code computes from vUp = (0, 0, 1.5) and
    vUpFront = (1.5, 0, 1.5). *)
Definition skewed_orientation : Orientation :=
  {| vUp := v_15_z;
     vFront := vec (f32 9 (-3)) pzero (f32 (-11795606) (-23));
     vRight := vec (f32 (-12275642) (-24)) (f32 (-15721676) (-24))
                   (f32 15344581 (-24)) |}.

(** A vector of exact length below 1 (its squared length is
    (16777215^2 * 2^22 + 10274330^2) / 2^70) whose sum of squares rounds to
    1 in binary32. *)
Definition v_almost_1 : Vector := vec (f32 16777215 (-24)) (f32 10274330 (-35)) pzero.

(** The sign bit is clear (a NaN has none to speak of). *)
Definition sign_clear (x : spec_float) : bool :=
  match x with
  | S754_zero s | S754_infinity s | S754_finite s _ _ => negb s
  | S754_nan => true
  end.

Definition has_nan (v : Vector) : Prop :=
  X v = S754_nan \/ Y v = S754_nan \/ Z v = S754_nan.

Definition no_finite_component (v : Vector) : Prop :=
  is_finite (X v) = false /\ is_finite (Y v) = false /\ is_finite (Z v) = false.

(** +0 or NaN, what [x - x] can be. *)
Definition pzero_or_nan (x : spec_float) : Prop := x = pzero \/ x = S754_nan.

(** The local [u2] of rotateVectorThroughAnotherVector: v2 minus c1 * e1. *)
Definition residual (P : Platform) (v1 v2 : Vector) : Vector :=
  let e1 := unitVector P v1 in
  let c1 := dotProduct v2 e1 in
  {| X := to_float (F64.sub (to_double (X v2)) (F64.mul c1 (to_double (X e1))));
     Y := to_float (F64.sub (to_double (Y v2)) (F64.mul c1 (to_double (Y e1))));
     Z := to_float (F64.sub (to_double (Z v2)) (F64.mul c1 (to_double (Z e1)))) |}.

Definition nan_magnitude : OrientationMagnitude :=
  {| UP := S754_nan; FRONT := S754_nan; RIGHT := S754_nan |}.

(** An axis one can project on: finite, with v . v neither zero nor NaN. *)
Definition regular_axis (v : Vector) : Prop :=
  finite_vector v /\ is_zero (dotProduct v v) = false /\ is_nan (dotProduct v v) = false.

(** The vector with the components divided by the [float] of [n]. *)
Definition divided_by (n : int) (v : Vector) : Vector :=
  {| X := F32.div (X v) (F32.of_int n);
     Y := F32.div (Y v) (F32.of_int n);
     Z := F32.div (Z v) (F32.of_int n) |}.

(** The components are binary32 numbers in canonical form. *)
Definition valid_vector (v : Vector) : Prop :=
  valid_binary F32.prec F32.emax (X v) = true /\
  valid_binary F32.prec F32.emax (Y v) = true /\
  valid_binary F32.prec F32.emax (Z v) = true.

Definition v_1_half_quarter : Vector := vec (f32 1 0) (f32 1 (-1)) (f32 1 (-2)).
(** The exact square of the Euclidean length of a vector of finite
    components, as a rational. *)
Definition exact_squared_length (v : Vector) : Q :=
  (SF2Q (X v) * SF2Q (X v) + SF2Q (Y v) * SF2Q (Y v) + SF2Q (Z v) * SF2Q (Z v))%Q.

(** What [x == y] can be asked of two results: they compare equal, or both
    are NaN (which [==] never holds equal). *)
Definition equal_or_both_nan (x y : spec_float) : Prop :=
  SFeqb x y = true \/ (x = S754_nan /\ y = S754_nan).

(** Two finite vectors whose products overflow binary32. *)
Definition v_huge_1 : Vector := vec (f32 1 100) (f32 1 100) pzero.
Definition v_huge_2 : Vector := vec (f32 1 100) (f32 1 101) pzero.

Definition v_0 : Vector := vec pzero pzero pzero.
Definition v_345 : Vector := vec (f32 3 0) (f32 4 0) (f32 5 0).
Definition v_2_x : Vector := vec (f32 2 0) pzero pzero.

(** ** Properties of the arithmetic *)

Section Rounding.
Variables prec emax : int.

Lemma binary_round_aux_sign (s : bool) mx ex lx :
  binary_round_aux prec emax s mx ex lx = S754_nan \/
  binary_round_aux prec emax s mx ex lx = S754_zero s \/
  binary_round_aux prec emax s mx ex lx = S754_infinity s \/
  exists m e, binary_round_aux prec emax s mx ex lx = S754_finite s m e.
Proof.
  unfold binary_round_aux.
  destruct (shr_fexp prec emax mx ex lx) as [mrs' e'].
  destruct (shr_fexp prec emax _ e' loc_Exact) as [mrs'' e''].
  destruct (shr_m mrs'') as [|m|m]; auto.
  destruct (e'' <=? emax - prec); eauto 10.
Qed.

Lemma binary_round_aux_opp (s : bool) mx ex lx :
  SFopp (binary_round_aux prec emax s mx ex lx)
  = binary_round_aux prec emax (negb s) mx ex lx.
Proof.
  unfold binary_round_aux.
  destruct (shr_fexp prec emax mx ex lx) as [mrs' e'].
  destruct (shr_fexp prec emax _ e' loc_Exact) as [mrs'' e''].
  destruct (shr_m mrs'') as [|m|m]; auto.
  destruct (e'' <=? emax - prec); reflexivity.
Qed.

Lemma binary_round_opp (s : bool) m e :
  SFopp (binary_round prec emax s m e) = binary_round prec emax (negb s) m e.
Proof.
  unfold binary_round.
  destruct (shl_align m e _) as [mz ez].
  apply binary_round_aux_opp.
Qed.

Lemma binary_round_not_negative m e :
  is_negative (binary_round prec emax false m e) = false.
Proof.
  unfold binary_round.
  destruct (shl_align m e _) as [mz ez].
  destruct (binary_round_aux_sign false (Zpos mz) ez loc_Exact)
    as [H | [H | [H | (m' & e' & H)]]]; rewrite H; reflexivity.
Qed.

(** [n - m] and [m - n] round to opposite numbers. *)
Lemma binary_normalize_opp n e :
  same_number (binary_normalize prec emax n e false)
              (SFopp (binary_normalize prec emax (- n) e false)).
Proof.
  destruct n as [|p|p]; simpl.
  - right; split; reflexivity.
  - left. rewrite binary_round_opp. reflexivity.
  - left. rewrite binary_round_opp. reflexivity.
Qed.

Lemma SFmul_comm x y : SFmul prec emax x y = SFmul prec emax y x.
Proof.
  destruct x as [sx|sx| |sx mx ex], y as [sy|sy| |sy my ey]; simpl;
    try rewrite (xorb_comm sx sy); try reflexivity.
  rewrite (Pos.mul_comm mx my), (Z.add_comm ex ey). reflexivity.
Qed.

Lemma SFsub_antisym x y :
  same_number (SFsub prec emax x y) (SFopp (SFsub prec emax y x)).
Proof.
  destruct x as [sx|sx| |sx mx ex], y as [sy|sy| |sy my ey];
    try (left; reflexivity);
    try (destruct sx, sy; simpl; (left; reflexivity) || (right; split; reflexivity)).
  unfold SFsub. rewrite (Z.min_comm ey ex).
  set (ez := Z.min ex ey).
  set (a := cond_Zopp sx _). set (b := cond_Zopp sy _).
  replace (b - a) with (- (a - b)) by lia.
  apply binary_normalize_opp.
Qed.

Lemma SFmul_nan_r x : SFmul prec emax x S754_nan = S754_nan.
Proof. destruct x; reflexivity. Qed.

Lemma SFadd_nan_r x : SFadd prec emax x S754_nan = S754_nan.
Proof. destruct x; reflexivity. Qed.

Lemma SFsub_nan_r x : SFsub prec emax x S754_nan = S754_nan.
Proof. destruct x; reflexivity. Qed.

Lemma SFdiv_nan_r x : SFdiv prec emax x S754_nan = S754_nan.
Proof. destruct x; reflexivity. Qed.

Lemma SFmul_nan_l x : SFmul prec emax S754_nan x = S754_nan.
Proof. reflexivity. Qed.

Lemma SFdiv_zero x : SFdiv prec emax x pzero = divided_by_zero x.
Proof. destruct x as [s|s| |s m e]; simpl; try destruct s; reflexivity. Qed.

(** a finite number times a zero is a zero *)
Lemma SFmul_zero_r x y :
  is_finite x = true -> is_zero y = true -> is_zero (SFmul prec emax x y) = true.
Proof. destruct x, y; simpl; congruence. Qed.

(** any number times a zero is a zero or a NaN *)
Lemma SFmul_zero_or_nan x y :
  is_zero y = true ->
  is_zero (SFmul prec emax x y) = true \/ SFmul prec emax x y = S754_nan.
Proof. destruct x, y; simpl; intros; auto; congruence. Qed.

Lemma SFmul_zero_zero x y :
  is_zero x = true -> is_zero y = true -> is_zero (SFmul prec emax x y) = true.
Proof. destruct x, y; simpl; congruence. Qed.

Lemma SFadd_zero_zero x y :
  is_zero x = true -> is_zero y = true -> is_zero (SFadd prec emax x y) = true.
Proof. destruct x as [[|]| | |], y as [[|]| | |]; simpl; congruence. Qed.

Lemma SFsub_zero_zero x y :
  is_zero x = true -> is_zero y = true -> is_zero (SFsub prec emax x y) = true.
Proof. destruct x as [[|]| | |], y as [[|]| | |]; simpl; congruence. Qed.

Lemma SFadd_zero_or_nan x y :
  is_zero x = true \/ x = S754_nan ->
  is_zero y = true \/ y = S754_nan ->
  is_zero (SFadd prec emax x y) = true \/ SFadd prec emax x y = S754_nan.
Proof.
  intros [Hx | ->] [Hy | ->]; auto using SFadd_nan_r.
  left. now apply SFadd_zero_zero.
Qed.

(** the square of a zero is +0 *)
Lemma SFmul_zero_square x : is_zero x = true -> SFmul prec emax x x = pzero.
Proof. destruct x as [[|]| | |]; simpl; intros H; try discriminate H; reflexivity. Qed.

Lemma convert_zero x : is_zero x = true -> is_zero (convert prec emax x) = true.
Proof. destruct x; simpl; intros H; try discriminate H; reflexivity. Qed.

Lemma convert_nan : convert prec emax S754_nan = S754_nan.
Proof. reflexivity. Qed.

Lemma convert_not_negative x :
  is_negative x = false -> is_negative (convert prec emax x) = false.
Proof.
  destruct x as [s|s| |[|] m e]; simpl; try congruence.
  intros _. apply binary_round_not_negative.
Qed.

Lemma SFsqrt_not_negative x : is_negative (SFsqrt prec emax x) = false.
Proof.
  destruct x as [s|[|]| |[|] m e]; simpl; try reflexivity.
  destruct (SFsqrt_core_binary prec emax (Zpos m) e) as [[mz ez] lz].
  destruct (binary_round_aux_sign false mz ez lz)
    as [H | [H | [H | (m' & e' & H)]]]; rewrite H; reflexivity.
Qed.
End Rounding.

(** [x < 0] in [double] is the sign test. *)
Lemma ltb_zero (x : float64) : F64.ltb x (F64.of_int 0) = is_negative x.
Proof. destruct x as [s|[|]| |[|] m e]; reflexivity. Qed.

(** A finite number of magnitude below 1 has integral part 0. *)
Lemma integral_part_small (x : spec_float) :
  is_finite x = true -> is_negative x = false -> (SF2Q x < 1)%Q ->
  integral_part x = Some 0.
Proof.
  destruct x as [s|s| |[|] m e]; try discriminate; try reflexivity.
  intros _ _. unfold SF2Q, integral_part, cond_Zopp, Qlt.
  destruct (0 <=? e) eqn:He; cbn [Qnum Qden inject_Z]; intros Hlt.
  - apply Z.leb_le in He.
    assert (0 < 2 ^ e) by (apply Z.pow_pos_nonneg; lia).
    exfalso. nia.
  - apply Z.leb_gt in He.
    assert (Hp : 0 < 2 ^ (- e)) by (apply Z.pow_pos_nonneg; lia).
    rewrite Z2Pos.id in Hlt by exact Hp.
    rewrite Z.div_small by lia. reflexivity.
Qed.

(** ** Properties of the vector operations *)

Lemma vectorMagnitude_not_negative (v : Vector) :
  is_negative (vectorMagnitude v) = false.
Proof.
  unfold vectorMagnitude, to_double.
  apply convert_not_negative, SFsqrt_not_negative.
Qed.

Lemma vectorMagnitude_zero (v : Vector) :
  zero_vector v -> vectorMagnitude v = pzero.
Proof.
  intros (Hx & Hy & Hz). unfold vectorMagnitude, F32.mul.
  rewrite !SFmul_zero_square by assumption. reflexivity.
Qed.

(** The dot product with a zero vector is a zero or a NaN, never negative. *)
Lemma dotProduct_zero_vector (v c : Vector) :
  zero_vector c -> is_negative (dotProduct v c) = false.
Proof.
  intros (Hx & Hy & Hz). unfold dotProduct, to_double, F32.add, F32.mul.
  destruct (SFadd_zero_or_nan F32.prec F32.emax _ _
              (SFadd_zero_or_nan F32.prec F32.emax _ _
                 (SFmul_zero_or_nan F32.prec F32.emax (X v) (X c) Hx)
                 (SFmul_zero_or_nan F32.prec F32.emax (Y v) (Y c) Hy))
              (SFmul_zero_or_nan F32.prec F32.emax (Z v) (Z c) Hz)) as [H | H].
  - destruct (SFadd _ _ _ _) as [s|s| |s m e]; try discriminate H. reflexivity.
  - rewrite H. reflexivity.
Qed.

Lemma isVectorsInOppositeDirection_negative (v1 v2 : Vector) :
  isVectorsInOppositeDirection v1 v2 = is_negative (dotProduct v1 v2).
Proof. apply ltb_zero. Qed.

Lemma signedMagnitude_zero_vector (axis c : Vector) :
  zero_vector c -> signedMagnitude axis c = pzero.
Proof.
  intros Hc. unfold signedMagnitude.
  rewrite isVectorsInOppositeDirection_negative, dotProduct_zero_vector by assumption.
  rewrite vectorMagnitude_zero by assumption. reflexivity.
Qed.

Lemma same_number_eqb (x y : spec_float) :
  same_number x y -> is_nan x = false -> SFeqb x y = true.
Proof.
  intros [<- | [Hx Hy]] Hn.
  - destruct x as [s|[|]| |[|] m e]; try reflexivity; try discriminate Hn;
      unfold SFeqb, SFcompare;
      rewrite Z.compare_refl, Pos.compare_cont_refl; reflexivity.
  - destruct x, y; try discriminate; reflexivity.
Qed.

(** The cross product of a finite vector with a zero vector is a zero
    vector. *)
Lemma crossProduct_zero_vector (v c : Vector) :
  finite_vector v -> zero_vector c -> zero_vector (crossProduct v c).
Proof.
  intros (Fx & Fy & Fz) (Hx & Hy & Hz).
  unfold zero_vector, crossProduct, F32.sub, F32.mul; cbn [X Y Z].
  repeat split; apply SFsub_zero_zero; apply SFmul_zero_r; assumption.
Qed.

Lemma div_zero_zero (x : float64) :
  is_zero x = true -> F64.div x pzero = S754_nan.
Proof. destruct x; try discriminate; reflexivity. Qed.

Lemma ref_platform_annex_F : annex_F ref_platform.
Proof. split; reflexivity. Qed.

Lemma ref_platform_quarter_turn : quarter_turn_values ref_platform.
Proof. split; vm_compute; reflexivity. Qed.

Lemma ref_platform_full_turn : full_turn_values ref_platform.
Proof. split; vm_compute; reflexivity. Qed.

(** ** The claims *)

(** C1.  unitVector does not return a vector of magnitude 1: the magnitude
    is truncated to an [int] before the division, so (1.5, 0, 0), of
    magnitude 1.5, is divided by 1 and comes back unchanged, with magnitude
    1.5. *)
Theorem unitVector_truncated_magnitude (P : Platform) :
  to_int P (vectorMagnitude v_15_x) = 1 /\
  unitVector P v_15_x = v_15_x /\
  (SF2Q (vectorMagnitude (unitVector P v_15_x)) == 3 # 2)%Q.
Proof. repeat split. Qed.

(** C3, as the code has it.  Whenever the magnitude that vectorMagnitude
    computes for the input is finite and below 1, the [int] local [vm] of
    unitVector is 0 and every component is divided by the zero it converts
    to: a non-zero component becomes an infinity and a zero component a
    NaN. *)
Theorem unitVector_divides_by_zero (P : Platform) (v : Vector) :
  is_finite (vectorMagnitude v) = true ->
  (SF2Q (vectorMagnitude v) < 1)%Q ->
  to_int P (vectorMagnitude v) = 0 /\
  F32.of_int 0 = pzero /\
  unitVector P v
  = vec (F32.div (X v) pzero) (F32.div (Y v) pzero) (F32.div (Z v) pzero) /\
  unitVector P v
  = vec (divided_by_zero (X v)) (divided_by_zero (Y v)) (divided_by_zero (Z v)).
Proof.
  intros Hfin Hlt.
  assert (Hvm : to_int P (vectorMagnitude v) = 0).
  { unfold to_int.
    rewrite (integral_part_small _ Hfin (vectorMagnitude_not_negative v) Hlt).
    reflexivity. }
  repeat split; try assumption; unfold unitVector; rewrite Hvm;
    change (F32.of_int 0) with pzero; unfold F32.div;
    rewrite ?SFdiv_zero; reflexivity.
Qed.

Lemma unitVector_divides_by_zero_witness :
  to_int ref_platform (vectorMagnitude v_half_x) = 0 /\
  F32.of_int 0 = pzero /\
  unitVector ref_platform v_half_x
  = vec (F32.div (X v_half_x) pzero) (F32.div (Y v_half_x) pzero)
        (F32.div (Z v_half_x) pzero) /\
  unitVector ref_platform v_half_x
  = vec (divided_by_zero (X v_half_x)) (divided_by_zero (Y v_half_x))
        (divided_by_zero (Z v_half_x)).
Proof.
  apply (unitVector_divides_by_zero ref_platform v_half_x);
    vm_compute; reflexivity.
Defined.

(** C3, as stated, fails: v_almost_1 is not zero and its exact length is
    below 1, but the sum of the squares rounds to 1 in binary32, [vm] is 1
    and the vector is divided by 1, not by zero. *)
Lemma unitVector_almost_1_divided_by_1 :
  (0 < exact_squared_length v_almost_1)%Q /\
  (exact_squared_length v_almost_1 < 1)%Q /\
  vectorMagnitude v_almost_1 = f64 1 0 /\
  to_int ref_platform (vectorMagnitude v_almost_1) = 1 /\
  to_int ref_platform (vectorMagnitude v_almost_1) <> 0 /\
  unitVector ref_platform v_almost_1 = v_almost_1.
Proof.
  repeat split; try (vm_compute; reflexivity). vm_compute. discriminate.
Qed.

(** (0.5, 0, 0) becomes (+infinity, NaN, NaN) on every platform. *)
Example unitVector_half (P : Platform) :
  unitVector P v_half_x = vec (S754_infinity false) S754_nan S754_nan.
Proof. reflexivity. Qed.

(** C9.  The vUp field of the result of findOrientation is the input vUp,
    whatever the platform and the inputs. *)
Theorem findOrientation_vUp (P : Platform) (vUp0 vUpFront : Vector) :
  vUp (findOrientation P vUp0 vUpFront) = vUp0.
Proof. reflexivity. Qed.

(** C10, as the code has it.  Each component of crossProduct(v1, v2)
    compares equal ([==]) to the negation of that component of
    crossProduct(v2, v1), zeros of either sign included, or both are
    NaN. *)
Theorem crossProduct_anticommutative (v1 v2 : Vector) :
  let a := crossProduct v1 v2 in
  let b := crossProduct v2 v1 in
  equal_or_both_nan (X a) (F32.opp (X b)) /\
  equal_or_both_nan (Y a) (F32.opp (Y b)) /\
  equal_or_both_nan (Z a) (F32.opp (Z b)).
Proof.
  assert (H : forall p q r s : float32,
             equal_or_both_nan (F32.sub (F32.mul p q) (F32.mul r s))
                               (F32.opp (F32.sub (F32.mul s r) (F32.mul q p)))).
  { intros p q r s.
    assert (Hs : same_number (F32.sub (F32.mul p q) (F32.mul r s))
                   (F32.opp (F32.sub (F32.mul s r) (F32.mul q p)))).
    { unfold F32.mul. rewrite (SFmul_comm _ _ s r), (SFmul_comm _ _ q p).
      apply SFsub_antisym. }
    destruct (is_nan (F32.sub (F32.mul p q) (F32.mul r s))) eqn:Hn.
    - right. destruct Hs as [Hs | [Hz _]].
      + rewrite <- Hs.
        destruct (F32.sub (F32.mul p q) (F32.mul r s)); try discriminate.
        split; reflexivity.
      + destruct (F32.sub (F32.mul p q) (F32.mul r s)); discriminate.
    - left. apply same_number_eqb; assumption. }
  cbn zeta. unfold crossProduct; cbn [X Y Z].
  repeat split; apply H.
Qed.

(** C10, as stated, fails: for the finite vectors (2^100, 2^100, 0) and
    (2^100, 2^101, 0) the products overflow, the Z component is infinity
    minus infinity on both sides, and NaN == NaN is false. *)
Lemma crossProduct_overflow_not_equal :
  finite_vector v_huge_1 /\ finite_vector v_huge_2 /\
  Z (crossProduct v_huge_1 v_huge_2) = S754_nan /\
  F32.opp (Z (crossProduct v_huge_2 v_huge_1)) = S754_nan /\
  SFeqb (Z (crossProduct v_huge_1 v_huge_2))
        (F32.opp (Z (crossProduct v_huge_2 v_huge_1))) = false.
Proof. repeat split. Qed.

(** The cross product of a vector with itself shows the zeros of both
    signs: +0 on one side, -0 on the other. *)
Example crossProduct_signed_zero :
  X (crossProduct v_x v_x) = S754_zero false /\
  F32.opp (X (crossProduct v_x v_x)) = S754_zero true.
Proof. split; reflexivity. Qed.

(** C8.  When the component of v along an axis is the zero vector, the
    magnitude reported for that axis is +0, not negated; and
    isVectorsInOppositeDirection is true exactly when the dot product is
    strictly negative. *)
Theorem zero_component_reported_as_positive_zero (v : Vector) (o : Orientation) :
  let c := findVectorComponentsInTheOrientation v o in
  let g := findVectorsMagnitudeInTheOrientation v o in
  (zero_vector (vUp c) -> UP g = pzero) /\
  (zero_vector (vFront c) -> FRONT g = pzero) /\
  (zero_vector (vRight c) -> RIGHT g = pzero) /\
  (forall v1 v2 : Vector,
     isVectorsInOppositeDirection v1 v2 = is_negative (dotProduct v1 v2)).
Proof.
  cbn zeta. unfold findVectorsMagnitudeInTheOrientation; cbn [UP FRONT RIGHT].
  repeat split; try apply signedMagnitude_zero_vector; try assumption.
  apply isVectorsInOppositeDirection_negative.
Qed.

Lemma zero_component_reported_as_positive_zero_witness :
  FRONT (findVectorsMagnitudeInTheOrientation v_z
           {| vUp := v_z; vFront := v_x; vRight := v_y |}) = pzero.
Proof.
  apply (zero_component_reported_as_positive_zero v_z
           {| vUp := v_z; vFront := v_x; vRight := v_y |}).
  repeat split; reflexivity.
Defined.

(** C5, as the code has it.  There is no special case: when the axis is
    finite and the perpendicular component of v1 computes to the zero
    vector, w is a zero vector, |w| is +0, each component of w is divided
    by it, and the three components of the result are NaN. *)
Theorem rotateAround_parallel_is_nan (P : Platform) (v1 v2 : Vector) (angle : int) :
  finite_vector v2 ->
  zero_vector (subtractVectors v1 (vectorComponentParallelToAnotherVector v1 v2)) ->
  let w := crossProduct v2
             (subtractVectors v1 (vectorComponentParallelToAnotherVector v1 v2)) in
  vectorMagnitude w = pzero /\
  rotateVectorAroundAnotherVector P v1 v2 angle = nan_vector.
Proof.
  intros Hfin Hperp w.
  assert (Hw : zero_vector w) by (apply crossProduct_zero_vector; assumption).
  assert (Hmag : vectorMagnitude w = pzero) by (apply vectorMagnitude_zero, Hw).
  split; [exact Hmag|].
  destruct Hw as (Hx & Hy & Hz).
  unfold rotateVectorAroundAnotherVector. fold w. rewrite Hmag.
  unfold to_double at 3 6 9.
  rewrite !div_zero_zero by (apply convert_zero; assumption).
  unfold F64.mul, F64.add.
  rewrite !SFmul_nan_r, !SFmul_nan_l, !SFadd_nan_r. reflexivity.
Qed.

Lemma rotateAround_parallel_is_nan_witness :
  vectorMagnitude
    (crossProduct v_x
       (subtractVectors v_x (vectorComponentParallelToAnotherVector v_x v_x)))
  = pzero /\
  rotateVectorAroundAnotherVector ref_platform v_x v_x 0 = nan_vector.
Proof.
  apply (rotateAround_parallel_is_nan ref_platform v_x v_x 0);
    repeat split; reflexivity.
Defined.

(** C5, as stated, fails: v1 = v2 = (1, 0, 0) is not returned unchanged. *)
Lemma rotateAround_parallel_not_unchanged :
  rotateVectorAroundAnotherVector ref_platform v_x v_x 0 <> v_x.
Proof. vm_compute. discriminate. Qed.

(** C4.  With angle 0, and cos 0 = 1, sin 0 = 0, rotating (1.5, 0, 0)
    toward (0, 1.5, 0) does not return (1.5, 0, 0): e1 is v1 divided by the
    truncated magnitude 1, so the result is |v1| * v1 = (2.25, 0, 0). *)
Theorem rotateThrough_angle_0_not_v1 (P : Platform) :
  annex_F P ->
  unitVector P v_15_x = v_15_x /\
  rotateVectorThroughAnotherVector P v_15_x v_15_y 0 = vec (f32 9 (-2)) pzero pzero /\
  rotateVectorThroughAnotherVector P v_15_x v_15_y 0 <> v_15_x.
Proof.
  intros [Hcos Hsin].
  assert (H : rotateVectorThroughAnotherVector P v_15_x v_15_y 0
              = vec (f32 9 (-2)) pzero pzero).
  { unfold rotateVectorThroughAnotherVector.
    change (radians 0) with pzero. rewrite Hcos, Hsin. reflexivity. }
  repeat split; [exact H|]. rewrite H. discriminate.
Qed.

Lemma rotateThrough_angle_0_not_v1_witness :
  unitVector ref_platform v_15_x = v_15_x /\
  rotateVectorThroughAnotherVector ref_platform v_15_x v_15_y 0
  = vec (f32 9 (-2)) pzero pzero /\
  rotateVectorThroughAnotherVector ref_platform v_15_x v_15_y 0 <> v_15_x.
Proof.
  apply (rotateThrough_angle_0_not_v1 ref_platform). split; reflexivity.
Defined.

Lemma findOrientation_skewed (P : Platform) :
  quarter_turn_values P ->
  findOrientation P v_15_z v_15_xz = skewed_orientation.
Proof.
  intros [Hcos Hsin].
  unfold findOrientation, rotateVectorThroughAnotherVector,
    rotateVectorAroundAnotherVector.
  rewrite Hcos, Hsin. vm_compute. reflexivity.
Qed.

(** C2.  For vUp = (0, 0, 1.5) and vUpFront = (1.5, 0, 1.5), non-zero and
    not collinear, the basis is not orthogonal and vFront has not the
    magnitude of vUp: vUp . vFront and vFront . vRight are below -2,
    vUp . vRight is above 1, and |vFront| is above 1.8 where |vUp| is
    1.5. *)
Theorem findOrientation_not_orthogonal (P : Platform) :
  quarter_turn_values P ->
  let o := findOrientation P v_15_z v_15_xz in
  (SF2Q (dotProduct (vUp o) (vFront o)) < - (2))%Q /\
  (1 < SF2Q (dotProduct (vUp o) (vRight o)))%Q /\
  (SF2Q (dotProduct (vFront o) (vRight o)) < - (2))%Q /\
  (SF2Q (vectorMagnitude v_15_z) == 3 # 2)%Q /\
  (9 # 5 < SF2Q (vectorMagnitude (vFront o)))%Q.
Proof.
  intros H. cbn zeta. rewrite (findOrientation_skewed P H).
  repeat split; vm_compute; reflexivity.
Qed.

Lemma findOrientation_not_orthogonal_witness :
  let o := findOrientation ref_platform v_15_z v_15_xz in
  (SF2Q (dotProduct (vUp o) (vFront o)) < - (2))%Q /\
  (1 < SF2Q (dotProduct (vUp o) (vRight o)))%Q /\
  (SF2Q (dotProduct (vFront o) (vRight o)) < - (2))%Q /\
  (SF2Q (vectorMagnitude v_15_z) == 3 # 2)%Q /\
  (9 # 5 < SF2Q (vectorMagnitude (vFront o)))%Q.
Proof.
  apply (findOrientation_not_orthogonal ref_platform).
  split; vm_compute; reflexivity.
Defined.

(** C6.  Decomposing v = vUp in that orientation gives UP = 1.5 but FRONT
    below -1.1 and RIGHT above 0.9, not 0. *)
Theorem decomposing_vUp_not_zero (P : Platform) :
  quarter_turn_values P ->
  let o := findOrientation P v_15_z v_15_xz in
  let g := findVectorsMagnitudeInTheOrientation (vUp o) o in
  UP g = f32 3 (-1) /\
  (SF2Q (FRONT g) < - (11 # 10))%Q /\
  (9 # 10 < SF2Q (RIGHT g))%Q.
Proof.
  intros H. cbn zeta. rewrite (findOrientation_skewed P H).
  repeat split; vm_compute; reflexivity.
Qed.

Lemma decomposing_vUp_not_zero_witness :
  let o := findOrientation ref_platform v_15_z v_15_xz in
  let g := findVectorsMagnitudeInTheOrientation (vUp o) o in
  UP g = f32 3 (-1) /\
  (SF2Q (FRONT g) < - (11 # 10))%Q /\
  (9 # 10 < SF2Q (RIGHT g))%Q.
Proof.
  apply (decomposing_vUp_not_zero ref_platform).
  split; vm_compute; reflexivity.
Defined.

(** C7.  Rotating (0, 1, 0) around (1, 0, 0): by 0 degrees the result is
    v1, but by 360 degrees the angle in radians is 360 * (3.1415 / 180) =
    6.283, short of a full turn, and the Z component of the result is
    sin 6.283, below -0.00018, where that of v1 is 0. *)
Theorem rotateAround_360_off (P : Platform) :
  annex_F P -> full_turn_values P ->
  rotateVectorAroundAnotherVector P v_y v_x 0 = v_y /\
  rotateVectorAroundAnotherVector P v_y v_x 360
  = vec pzero (f32 1 0) (f32 (-12734212) (-36)) /\
  (SF2Q (Z (rotateVectorAroundAnotherVector P v_y v_x 360)) < - (18 # 100000))%Q.
Proof.
  intros [Hcos0 Hsin0] [Hcos Hsin].
  assert (H : rotateVectorAroundAnotherVector P v_y v_x 360
              = vec pzero (f32 1 0) (f32 (-12734212) (-36))).
  { unfold rotateVectorAroundAnotherVector. rewrite Hcos, Hsin.
    vm_compute. reflexivity. }
  repeat split.
  - unfold rotateVectorAroundAnotherVector.
    change (radians 0) with pzero. rewrite Hcos0, Hsin0. reflexivity.
  - exact H.
  - rewrite H. vm_compute. reflexivity.
Qed.

Lemma rotateAround_360_off_witness :
  rotateVectorAroundAnotherVector ref_platform v_y v_x 0 = v_y /\
  rotateVectorAroundAnotherVector ref_platform v_y v_x 360
  = vec pzero (f32 1 0) (f32 (-12734212) (-36)) /\
  (SF2Q (Z (rotateVectorAroundAnotherVector ref_platform v_y v_x 360))
   < - (18 # 100000))%Q.
Proof.
  apply (rotateAround_360_off ref_platform).
  - split; reflexivity.
  - split; vm_compute; reflexivity.
Defined.

(** ** Further evaluations *)

(** The magnitude in C3 is the one the program computes: v_almost_1 is
    shorter than 1, its computed magnitude is 1 and it is divided by 1. *)
Example vectorMagnitude_rounds_to_1 (P : Platform) :
  16777215 ^ 2 * 2 ^ 22 + 10274330 ^ 2 < 2 ^ 70 /\
  vectorMagnitude v_almost_1 = f64 1 0 /\
  unitVector P v_almost_1 = v_almost_1.
Proof. repeat split. Qed.

Lemma unitVector_nan (P : Platform) : unitVector P nan_vector = nan_vector.
Proof. reflexivity. Qed.

(** With a vUp of magnitude below 1 the division by zero of C3 reaches the
    basis: on every platform vFront and vRight are NaN throughout. *)
Lemma findOrientation_short_vUp (P : Platform) :
  findOrientation P v_half_z v_half_xz
  = {| vUp := v_half_z; vFront := nan_vector; vRight := nan_vector |}.
Proof.
  assert (H : rotateVectorThroughAnotherVector P v_half_z v_half_xz 90 = nan_vector).
  { unfold rotateVectorThroughAnotherVector.
    generalize (cos P (radians 90)) (sin P (radians 90)); intros c s.
    match goal with
    | |- context [unitVector P ?u] =>
        lazymatch u with
        | v_half_z => fail
        | _ => change u with nan_vector
        end
    end.
    rewrite unitVector_nan.
    change (unitVector P v_half_z) with (vec S754_nan S754_nan (S754_infinity false)).
    cbn [X Y Z vec nan_vector]. change (to_double S754_nan) with S754_nan.
    unfold F64.mul, F64.add.
    rewrite !SFmul_nan_r, !SFadd_nan_r. reflexivity. }
  unfold findOrientation. rewrite H.
  unfold rotateVectorAroundAnotherVector.
  generalize (cos P (radians 90)) (sin P (radians 90)); intros c s.
  reflexivity.
Qed.

Lemma decomposing_short_vUp (P : Platform) :
  let o := findOrientation P v_half_z v_half_xz in
  findVectorsMagnitudeInTheOrientation (vUp o) o
  = {| UP := f32 1 (-1); FRONT := S754_nan; RIGHT := S754_nan |}.
Proof. cbn zeta. rewrite findOrientation_short_vUp. reflexivity. Qed.

(** With vUp = (0, 0, 1), whose magnitude the truncation leaves alone, the
    basis is orthogonal up to cos (90 * (3.1415 / 180)), about 0.0000463. *)
Example findOrientation_unit_vUp :
  findOrientation ref_platform v_z (vec (f32 1 0) pzero (f32 1 0))
  = {| vUp := v_z;
       vFront := vec (f32 1 0) pzero (f32 12734212 (-38));
       vRight := vec (f32 12733622 (-38)) (f32 (-1) 0) (f32 12734802 (-38)) |}.
Proof. vm_compute. reflexivity. Qed.

(** The constants of the program. *)
Example PI_value : PI = f64 7074029114692207 (-51).
Proof. reflexivity. Qed.

Example radians_values :
  radians 0 = pzero /\
  radians 90 = f64 7074029114692207 (-52) /\
  radians 360 = f64 7074029114692207 (-50).
Proof. repeat split. Qed.

(** ** Further properties of the arithmetic *)

Section Signs.
Variables prec emax : int.

Lemma binary_round_aux_sign_clear mx ex lx :
  sign_clear (binary_round_aux prec emax false mx ex lx) = true.
Proof.
  destruct (binary_round_aux_sign prec emax false mx ex lx)
    as [H | [H | [H | (m & e & H)]]]; rewrite H; reflexivity.
Qed.

Lemma binary_round_sign_clear m e :
  sign_clear (binary_round prec emax false m e) = true.
Proof.
  unfold binary_round. destruct (shl_align m e _) as [mz ez].
  apply binary_round_aux_sign_clear.
Qed.

Lemma SFmul_square_sign_clear x : sign_clear (SFmul prec emax x x) = true.
Proof.
  destruct x as [s|s| |s m e]; simpl; rewrite ?xorb_nilpotent; try reflexivity.
  apply binary_round_aux_sign_clear.
Qed.

Lemma SFadd_sign_clear x y :
  sign_clear x = true -> sign_clear y = true ->
  sign_clear (SFadd prec emax x y) = true.
Proof.
  destruct x as [[|]|[|]| |[|] mx ex], y as [[|]|[|]| |[|] my ey];
    try discriminate; try reflexivity.
  intros _ _. unfold SFadd, cond_Zopp.
  cbn [Z.add binary_normalize]. apply binary_round_sign_clear.
Qed.

Lemma SFsqrt_sign_clear x :
  sign_clear x = true -> sign_clear (SFsqrt prec emax x) = true.
Proof.
  destruct x as [[|]|[|]| |[|] m e]; try discriminate; try reflexivity.
  intros _. simpl.
  destruct (SFsqrt_core_binary prec emax (Zpos m) e) as [[mz ez] lz].
  apply binary_round_aux_sign_clear.
Qed.

Lemma convert_sign_clear x :
  sign_clear x = true -> sign_clear (convert prec emax x) = true.
Proof.
  destruct x as [[|]|[|]| |[|] m e]; try discriminate; try reflexivity.
  intros _. apply binary_round_sign_clear.
Qed.

Lemma sign_clear_not_negative x : sign_clear x = true -> is_negative x = false.
Proof. destruct x as [[|]|[|]| |[|] m e]; try discriminate; reflexivity. Qed.

(** [x - x] is +0, or NaN when [x] is not finite. *)
Lemma SFsub_diag x : pzero_or_nan (SFsub prec emax x x).
Proof.
  destruct x as [[|]|[|]| |s m e]; try (left; reflexivity); try (right; reflexivity).
  left. unfold SFsub. rewrite Z.sub_diag. reflexivity.
Qed.

Lemma SFsub_diag_finite x :
  is_finite x = true -> SFsub prec emax x x = pzero.
Proof.
  destruct x as [[|]|[|]| |s m e]; try discriminate; try reflexivity.
  intros _. unfold SFsub. rewrite Z.sub_diag. reflexivity.
Qed.

(** What is not finite stays so. *)
Lemma SFmul_not_finite_r x y :
  is_finite y = false -> is_finite (SFmul prec emax x y) = false.
Proof. destruct x, y; try discriminate; reflexivity. Qed.

Lemma SFadd_not_finite_l x y :
  is_finite x = false -> is_finite (SFadd prec emax x y) = false.
Proof.
  destruct x as [|[|]| |], y as [|[|]| |]; try discriminate; reflexivity.
Qed.

Lemma SFadd_not_finite_r x y :
  is_finite y = false -> is_finite (SFadd prec emax x y) = false.
Proof.
  destruct x as [|[|]| |], y as [|[|]| |]; try discriminate; reflexivity.
Qed.

Lemma convert_not_finite x :
  is_finite x = false -> is_finite (convert prec emax x) = false.
Proof. destruct x; try discriminate; reflexivity. Qed.

Lemma SFdiv_zero_not_finite x : is_finite (SFdiv prec emax x pzero) = false.
Proof. destruct x as [[|]|[|]| |[|] m e]; reflexivity. Qed.

(** The product of two numbers that are not finite is an infinity or a
    NaN, and so is a sum of such. *)
Lemma SFdiv_not_finite x y :
  is_finite x = false -> is_finite y = false -> SFdiv prec emax x y = S754_nan.
Proof. destruct x, y; try discriminate; reflexivity. Qed.

Lemma SFdiv_zero_finite x y :
  is_zero x = true -> is_zero y = false -> is_nan y = false ->
  is_zero (SFdiv prec emax x y) = true.
Proof. destruct x, y; try discriminate; reflexivity. Qed.
End Signs.

(** The integral part of a finite non-negative number is the floor of its
    value. *)
Lemma integral_part_floor (x : spec_float) :
  is_finite x = true -> is_negative x = false ->
  integral_part x = Some (Qfloor (SF2Q x)).
Proof.
  destruct x as [s|s| |[|] m e]; try discriminate; try reflexivity.
  intros _ _. unfold SF2Q, integral_part, cond_Zopp.
  destruct (0 <=? e) eqn:He.
  - rewrite Qfloor_Z. reflexivity.
  - apply Z.leb_gt in He.
    assert (Hp : 0 < 2 ^ (- e)) by (apply Z.pow_pos_nonneg; lia).
    unfold Qfloor. rewrite Z2Pos.id by exact Hp. reflexivity.
Qed.

(** ** Further properties of the vector operations *)

Lemma sum_of_squares_sign_clear (x y z : float32) :
  sign_clear (F32.add (F32.add (F32.mul x x) (F32.mul y y)) (F32.mul z z)) = true.
Proof.
  unfold F32.add, F32.mul.
  repeat apply SFadd_sign_clear; apply SFmul_square_sign_clear.
Qed.

Lemma dotProduct_self_sign_clear (v : Vector) : sign_clear (dotProduct v v) = true.
Proof.
  unfold dotProduct, to_double.
  apply convert_sign_clear, sum_of_squares_sign_clear.
Qed.

Lemma vectorMagnitude_sign_clear (v : Vector) : sign_clear (vectorMagnitude v) = true.
Proof.
  unfold vectorMagnitude, to_double, F32.sqrt.
  apply convert_sign_clear, SFsqrt_sign_clear, sum_of_squares_sign_clear.
Qed.

Lemma integral_part_nonneg (x : spec_float) (n : int) :
  is_negative x = false -> integral_part x = Some n -> 0 <= n.
Proof.
  destruct x as [s|s| |[|] m e]; try discriminate;
    unfold integral_part, cond_Zopp; intros _ H.
  - assert (n = 0) by congruence. lia.
  - assert (Hn : n = if 0 <=? e then Zpos m * 2 ^ e else Zpos m / 2 ^ (- e))
      by congruence.
    rewrite Hn. destruct (0 <=? e) eqn:He.
    + apply Z.leb_le in He. apply Z.mul_nonneg_nonneg; [lia|].
      apply Z.pow_nonneg. lia.
    + apply Z.div_pos; [lia|]. apply Z.pow_pos_nonneg; lia.
Qed.

Lemma unitVector_divided_by (P : Platform) (v : Vector) :
  unitVector P v = divided_by (to_int P (vectorMagnitude v)) v.
Proof. reflexivity. Qed.

(** With a computed magnitude below 1 no component of the result of
    unitVector is finite. *)
Lemma unitVector_small (P : Platform) (v : Vector) :
  is_finite (vectorMagnitude v) = true ->
  (SF2Q (vectorMagnitude v) < 1)%Q ->
  no_finite_component (unitVector P v).
Proof.
  intros Hfin Hlt. rewrite unitVector_divided_by. unfold to_int.
  rewrite (integral_part_small _ Hfin (vectorMagnitude_not_negative v) Hlt).
  change (F32.of_int _) with pzero.
  repeat split; apply SFdiv_zero_not_finite.
Qed.

Lemma unitVector_zero_vector (P : Platform) (v : Vector) :
  zero_vector v -> unitVector P v = nan_vector.
Proof.
  intros Hz. rewrite unitVector_divided_by, (vectorMagnitude_zero v Hz).
  destruct Hz as (Hx & Hy & Hz).
  destruct v as [[sx|sx| |sx mx ex] [sy|sy| |sy my ey] [sz|sz| |sz mz ez]];
    try discriminate; reflexivity.
Qed.

(** The dot product with a vector that has a NaN component is NaN. *)
Lemma dotProduct_nan_l (v a : Vector) : has_nan v -> dotProduct v a = S754_nan.
Proof.
  unfold dotProduct, F32.add, F32.mul. intros [H | [H | H]]; rewrite H.
  - reflexivity.
  - rewrite SFmul_nan_l, SFadd_nan_r. reflexivity.
  - rewrite SFmul_nan_l, SFadd_nan_r. reflexivity.
Qed.

Lemma dotProduct_nan_r (v a : Vector) : has_nan a -> dotProduct v a = S754_nan.
Proof.
  unfold dotProduct, F32.add, F32.mul. intros [H | [H | H]]; rewrite H.
  - rewrite SFmul_nan_r. reflexivity.
  - rewrite SFmul_nan_r, SFadd_nan_r. reflexivity.
  - rewrite SFmul_nan_r, SFadd_nan_r. reflexivity.
Qed.

Lemma has_nan_nan_vector : has_nan nan_vector.
Proof. left. reflexivity. Qed.

Lemma dotProduct_zero_or_nan (v c : Vector) :
  zero_vector c -> is_zero (dotProduct v c) = true \/ dotProduct v c = S754_nan.
Proof.
  intros (Hx & Hy & Hz). unfold dotProduct, to_double, F32.add, F32.mul.
  destruct (SFadd_zero_or_nan F32.prec F32.emax _ _
              (SFadd_zero_or_nan F32.prec F32.emax _ _
                 (SFmul_zero_or_nan F32.prec F32.emax (X v) (X c) Hx)
                 (SFmul_zero_or_nan F32.prec F32.emax (Y v) (Y c) Hy))
              (SFmul_zero_or_nan F32.prec F32.emax (Z v) (Z c) Hz)) as [H | H].
  - left. apply convert_zero, H.
  - right. rewrite H. reflexivity.
Qed.

Lemma dotProduct_self_zero (v : Vector) : zero_vector v -> dotProduct v v = pzero.
Proof.
  intros (Hx & Hy & Hz). unfold dotProduct, F32.mul.
  rewrite !SFmul_zero_square by assumption. reflexivity.
Qed.

(** A NaN quotient makes the whole projection NaN. *)
Lemma parallel_component_nan_aux (v1 v2 : Vector) :
  F64.div (dotProduct v1 v2) (dotProduct v2 v2) = S754_nan ->
  vectorComponentParallelToAnotherVector v1 v2 = nan_vector.
Proof.
  intros H. unfold vectorComponentParallelToAnotherVector. rewrite H. reflexivity.
Qed.

Lemma parallel_component_zero_axis (v1 v2 : Vector) :
  zero_vector v2 -> vectorComponentParallelToAnotherVector v1 v2 = nan_vector.
Proof.
  intros Hz. apply parallel_component_nan_aux.
  rewrite (dotProduct_self_zero v2 Hz).
  destruct (dotProduct_zero_or_nan v1 v2 Hz) as [H | H].
  - apply div_zero_zero, H.
  - rewrite H. reflexivity.
Qed.

Lemma parallel_component_nan_input (v1 v2 : Vector) :
  has_nan v1 -> vectorComponentParallelToAnotherVector v1 v2 = nan_vector.
Proof.
  intros H. apply parallel_component_nan_aux.
  rewrite (dotProduct_nan_l v1 v2 H). reflexivity.
Qed.

Lemma dotProduct_not_finite_r (v a : Vector) :
  no_finite_component a -> is_finite (dotProduct v a) = false.
Proof.
  intros (Hx & Hy & Hz). unfold dotProduct, to_double, F32.add, F32.mul.
  apply convert_not_finite, SFadd_not_finite_r, SFmul_not_finite_r, Hz.
Qed.

Lemma parallel_component_not_finite_axis (v1 v2 : Vector) :
  no_finite_component v2 -> vectorComponentParallelToAnotherVector v1 v2 = nan_vector.
Proof.
  intros H. apply parallel_component_nan_aux.
  apply SFdiv_not_finite; apply dotProduct_not_finite_r, H.
Qed.

Lemma signedMagnitude_nan (axis : Vector) : signedMagnitude axis nan_vector = S754_nan.
Proof.
  unfold signedMagnitude, isVectorsInOppositeDirection.
  rewrite (dotProduct_nan_r axis nan_vector has_nan_nan_vector). reflexivity.
Qed.

(** Once the parallel component is NaN, the whole rotation is. *)
Lemma rotateAround_nan_parallel (P : Platform) (v1 v2 : Vector) (angle : int) :
  vectorComponentParallelToAnotherVector v1 v2 = nan_vector ->
  rotateVectorAroundAnotherVector P v1 v2 angle = nan_vector.
Proof.
  intros H. unfold rotateVectorAroundAnotherVector. rewrite H. reflexivity.
Qed.

Lemma rotateThrough_residual (P : Platform) (v1 v2 : Vector) (angle : int) :
  rotateVectorThroughAnotherVector P v1 v2 angle
  = let e1 := unitVector P v1 in
    let e2 := unitVector P (residual P v1 v2) in
    let a := F64.mul (vectorMagnitude v1) (cos P (radians angle)) in
    let b := F64.mul (vectorMagnitude v1) (sin P (radians angle)) in
    {| X := to_float (F64.add (F64.mul a (to_double (X e1))) (F64.mul b (to_double (X e2))));
       Y := to_float (F64.add (F64.mul a (to_double (Y e1))) (F64.mul b (to_double (Y e2))));
       Z := to_float (F64.add (F64.mul a (to_double (Z e1))) (F64.mul b (to_double (Z e2)))) |}.
Proof. reflexivity. Qed.

Lemma rotateThrough_not_finite (P : Platform) (v1 v2 : Vector) (angle : int) :
  no_finite_component (unitVector P v1) \/
  no_finite_component (unitVector P (residual P v1 v2)) ->
  no_finite_component (rotateVectorThroughAnotherVector P v1 v2 angle).
Proof.
  rewrite rotateThrough_residual. cbn zeta.
  unfold no_finite_component at 3; cbn [X Y Z].
  unfold to_float, to_double, F64.add, F64.mul.
  intros [(Hx & Hy & Hz) | (Hx & Hy & Hz)]; repeat split;
    apply convert_not_finite;
    first [ apply SFadd_not_finite_l, SFmul_not_finite_r, convert_not_finite;
            assumption
          | apply SFadd_not_finite_r, SFmul_not_finite_r, convert_not_finite;
            assumption ].
Qed.

Lemma residual_nan (P : Platform) (v1 v2 : Vector) :
  unitVector P v1 = nan_vector -> residual P v1 v2 = nan_vector.
Proof.
  intros H. unfold residual. rewrite H.
  rewrite (dotProduct_nan_r v2 nan_vector has_nan_nan_vector).
  cbn [X Y Z nan_vector vec]. unfold F64.sub, F64.mul.
  rewrite !SFmul_nan_l, !SFsub_nan_r. reflexivity.
Qed.

Lemma rotateThrough_nan (P : Platform) (v1 v2 : Vector) (angle : int) :
  unitVector P v1 = nan_vector ->
  rotateVectorThroughAnotherVector P v1 v2 angle = nan_vector.
Proof.
  intros H. rewrite rotateThrough_residual, (residual_nan P v1 v2 H), H.
  cbn zeta. rewrite unitVector_nan.
  cbn [X Y Z nan_vector vec]. change (to_double S754_nan) with S754_nan.
  unfold F64.add, F64.mul. rewrite !SFmul_nan_r. reflexivity.
Qed.

Lemma digits2_pos_iter_xO (m k : positive) :
  Zpos (digits2_pos (Pos.iter xO m k)) = Zpos (digits2_pos m) + Zpos k.
Proof.
  induction k as [|k IH] using Pos.peano_ind.
  - simpl. lia.
  - rewrite Pos.iter_succ. cbn [digits2_pos]. lia.
Qed.

(** A valid binary32 number converts to a finite binary64 number. *)
Lemma to_double_finite (x : float32) :
  valid_binary F32.prec F32.emax x = true -> is_finite x = true ->
  is_finite (to_double x) = true.
Proof.
  destruct x as [s|s| |s m e]; try discriminate; try reflexivity.
  intros Hv _. unfold valid_binary, bounded, canonical_mantissa in Hv.
  apply andb_true_iff in Hv. destruct Hv as [Hc He].
  apply Z.eqb_eq in Hc. apply Z.leb_le in He.
  unfold fexp, emin, F32.prec, F32.emax in Hc, He.
  set (d := Zpos (digits2_pos m)) in *.
  assert (Hd : 0 < d) by (unfold d; lia).
  assert (Ht : fexp F64.prec F64.emax (d + e) < e).
  { unfold fexp, emin, F64.prec, F64.emax. lia. }
  unfold to_double, convert.
  assert (Hr : is_finite (binary_round F64.prec F64.emax s m e) = true).
  { unfold binary_round. fold d.
    set (t := fexp F64.prec F64.emax (d + e)) in *.
    unfold shl_align. destruct (t - e) as [|p|p] eqn:Hk; try lia.
    unfold binary_round_aux, shr_fexp.
    cbn [Zdigits2]. rewrite digits2_pos_iter_xO. fold d.
    replace (d + Zpos p + t) with (d + e) by lia. fold t.
    rewrite Z.sub_diag. cbn [shr shr_record_of_loc shr_m loc_of_shr_record round_nearest_even].
    cbn [Zdigits2]. rewrite digits2_pos_iter_xO. fold d.
    replace (d + Zpos p + t) with (d + e) by lia. fold t.
    rewrite Z.sub_diag. cbn [shr shr_record_of_loc shr_m].
    destruct (t <=? F64.emax - F64.prec) eqn:Hle; [reflexivity|].
    apply Z.leb_gt in Hle. unfold F64.emax, F64.prec in Hle. lia. }
  destruct s; exact Hr.
Qed.

Lemma dotProduct_zero_l (v a : Vector) :
  zero_vector v -> finite_vector a -> is_zero (dotProduct v a) = true.
Proof.
  intros (Hx & Hy & Hz) (Fx & Fy & Fz).
  unfold dotProduct, to_double, F32.add, F32.mul.
  apply convert_zero.
  rewrite (SFmul_comm _ _ (X v)), (SFmul_comm _ _ (Y v)), (SFmul_comm _ _ (Z v)).
  repeat apply SFadd_zero_zero; apply SFmul_zero_r; assumption.
Qed.

Lemma parallel_component_zero_input (v a : Vector) :
  zero_vector v -> regular_axis a -> valid_vector a ->
  zero_vector (vectorComponentParallelToAnotherVector v a).
Proof.
  intros Hv (Hfin & Hnz & Hnn) (Vx & Vy & Vz).
  assert (Haux : is_zero (F64.div (dotProduct v a) (dotProduct a a)) = true).
  { apply SFdiv_zero_finite; try assumption.
    apply dotProduct_zero_l; assumption. }
  destruct Hfin as (Fx & Fy & Fz).
  unfold zero_vector, vectorComponentParallelToAnotherVector; cbn [X Y Z].
  unfold to_float, F64.mul.
  repeat split; apply convert_zero;
    rewrite SFmul_comm; apply SFmul_zero_r; try assumption;
    apply to_double_finite; assumption.
Qed.

(** ** Further properties of the program *)

(** X1.  dotProduct is commutative, exactly, and so is
    isVectorsInOppositeDirection. *)
Theorem dotProduct_commutative (v1 v2 : Vector) :
  dotProduct v1 v2 = dotProduct v2 v1 /\
  isVectorsInOppositeDirection v1 v2 = isVectorsInOppositeDirection v2 v1.
Proof.
  assert (H : dotProduct v1 v2 = dotProduct v2 v1).
  { unfold dotProduct, F32.mul.
    rewrite (SFmul_comm _ _ (X v1)), (SFmul_comm _ _ (Y v1)), (SFmul_comm _ _ (Z v1)).
    reflexivity. }
  split; [exact H|]. unfold isVectorsInOppositeDirection. rewrite H. reflexivity.
Qed.

(** X2.  No vector is in the opposite direction to itself, whatever its
    components (infinities and NaN included). *)
Theorem never_opposite_to_itself (v : Vector) :
  isVectorsInOppositeDirection v v = false.
Proof.
  rewrite isVectorsInOppositeDirection_negative.
  apply sign_clear_not_negative, dotProduct_self_sign_clear.
Qed.

(** X3.  vectorMagnitude never returns a negative number nor -0, and
    returns +0 for a zero vector of any signs. *)
Theorem vectorMagnitude_sign (v : Vector) :
  sign_clear (vectorMagnitude v) = true /\
  (zero_vector v -> vectorMagnitude v = pzero).
Proof.
  split; [apply vectorMagnitude_sign_clear | apply vectorMagnitude_zero].
Qed.

Lemma vectorMagnitude_sign_witness :
  vectorMagnitude (vec (S754_zero true) pzero (S754_zero true)) = pzero.
Proof.
  apply (vectorMagnitude_sign (vec (S754_zero true) pzero (S754_zero true))).
  repeat split.
Defined.

(** X4.  When the computed magnitude is finite and below 2^31, unitVector
    divides each component by the floor of that magnitude. *)
Theorem unitVector_divides_by_floor (P : Platform) (v : Vector) :
  is_finite (vectorMagnitude v) = true ->
  (SF2Q (vectorMagnitude v) < inject_Z (2 ^ 31))%Q ->
  unitVector P v = divided_by (Qfloor (SF2Q (vectorMagnitude v))) v.
Proof.
  intros Hfin Hlt. rewrite unitVector_divided_by. f_equal.
  pose proof (vectorMagnitude_not_negative v) as Hneg.
  pose proof (integral_part_floor _ Hfin Hneg) as Hip.
  pose proof (integral_part_nonneg _ _ Hneg Hip) as H0.
  unfold to_int. rewrite Hip.
  assert (Hmax : Qfloor (SF2Q (vectorMagnitude v)) < 2 ^ 31).
  { rewrite Zlt_Qlt. eapply Qle_lt_trans; [apply Qfloor_le | exact Hlt]. }
  replace (INT_MIN <=? _) with true
    by (symmetry; apply Z.leb_le; unfold INT_MIN; lia).
  replace (_ <=? INT_MAX) with true
    by (symmetry; apply Z.leb_le; unfold INT_MAX; lia).
  reflexivity.
Qed.

Lemma unitVector_divides_by_floor_witness :
  unitVector ref_platform v_345
  = divided_by (Qfloor (SF2Q (vectorMagnitude v_345))) v_345.
Proof.
  apply (unitVector_divides_by_floor ref_platform v_345);
    vm_compute; reflexivity.
Defined.

(** The magnitude of (3, 4, 5) is about 7.07 and the divisor is 7. *)
Example unitVector_345 : Qfloor (SF2Q (vectorMagnitude v_345)) = 7.
Proof. reflexivity. Qed.

(** X6.  Projecting any vector onto a zero vector gives NaN in the three
    components (the quotient is 0/0 or NaN/0), and a NaN signed
    magnitude. *)
Theorem projection_onto_zero_vector (v1 v2 : Vector) :
  zero_vector v2 ->
  vectorComponentParallelToAnotherVector v1 v2 = nan_vector /\
  signedMagnitude v2 (vectorComponentParallelToAnotherVector v1 v2) = S754_nan.
Proof.
  intros Hz. rewrite (parallel_component_zero_axis v1 v2 Hz).
  split; [reflexivity | apply signedMagnitude_nan].
Qed.

Lemma projection_onto_zero_vector_witness :
  vectorComponentParallelToAnotherVector v_345 v_0 = nan_vector /\
  signedMagnitude v_0 (vectorComponentParallelToAnotherVector v_345 v_0) = S754_nan.
Proof.
  apply (projection_onto_zero_vector v_345 v_0). repeat split.
Defined.

(** X7.  Rotating around a zero axis gives NaN in the three components,
    for every vector, angle and platform. *)
Theorem rotateAround_zero_axis (P : Platform) (v1 v2 : Vector) (angle : int) :
  zero_vector v2 -> rotateVectorAroundAnotherVector P v1 v2 angle = nan_vector.
Proof.
  intros Hz. apply rotateAround_nan_parallel, parallel_component_zero_axis, Hz.
Qed.

Lemma rotateAround_zero_axis_witness :
  rotateVectorAroundAnotherVector ref_platform v_345 v_0 90 = nan_vector.
Proof.
  apply (rotateAround_zero_axis ref_platform v_345 v_0 90). repeat split.
Defined.

(** X8.  A measured vector with a NaN component is reported as NaN in the
    three directions, in any orientation: the components and the
    magnitudes are all NaN. *)
Theorem nan_reading_is_reported_nan (v : Vector) (o : Orientation) :
  has_nan v ->
  findVectorComponentsInTheOrientation v o
  = {| vUp := nan_vector; vFront := nan_vector; vRight := nan_vector |} /\
  findVectorsMagnitudeInTheOrientation v o = nan_magnitude.
Proof.
  intros H.
  assert (Hc : findVectorComponentsInTheOrientation v o
               = {| vUp := nan_vector; vFront := nan_vector; vRight := nan_vector |}).
  { unfold findVectorComponentsInTheOrientation.
    rewrite !(parallel_component_nan_input v _ H). reflexivity. }
  split; [exact Hc|].
  unfold findVectorsMagnitudeInTheOrientation. rewrite Hc. cbn [vUp vFront vRight].
  rewrite !signedMagnitude_nan. reflexivity.
Qed.

Lemma nan_reading_is_reported_nan_witness :
  findVectorComponentsInTheOrientation (vec (f32 1 0) S754_nan pzero)
    {| vUp := v_z; vFront := v_x; vRight := v_y |}
  = {| vUp := nan_vector; vFront := nan_vector; vRight := nan_vector |} /\
  findVectorsMagnitudeInTheOrientation (vec (f32 1 0) S754_nan pzero)
    {| vUp := v_z; vFront := v_x; vRight := v_y |} = nan_magnitude.
Proof.
  apply (nan_reading_is_reported_nan (vec (f32 1 0) S754_nan pzero)
           {| vUp := v_z; vFront := v_x; vRight := v_y |}).
  right; left. reflexivity.
Defined.

(** X9.  An orientation axis that is a zero vector, or has no finite
    component, makes the magnitude reported for that axis NaN. *)
Theorem degenerate_axis_is_reported_nan (v : Vector) (o : Orientation) :
  let g := findVectorsMagnitudeInTheOrientation v o in
  (zero_vector (vUp o) \/ no_finite_component (vUp o) -> UP g = S754_nan) /\
  (zero_vector (vFront o) \/ no_finite_component (vFront o) -> FRONT g = S754_nan) /\
  (zero_vector (vRight o) \/ no_finite_component (vRight o) -> RIGHT g = S754_nan).
Proof.
  assert (H : forall a, zero_vector a \/ no_finite_component a ->
                        signedMagnitude a (vectorComponentParallelToAnotherVector v a)
                        = S754_nan).
  { intros a [Ha | Ha].
    - rewrite (parallel_component_zero_axis v a Ha). apply signedMagnitude_nan.
    - rewrite (parallel_component_not_finite_axis v a Ha). apply signedMagnitude_nan. }
  cbn zeta. unfold findVectorsMagnitudeInTheOrientation,
    findVectorComponentsInTheOrientation; cbn [UP FRONT RIGHT vUp vFront vRight].
  repeat split; apply H.
Qed.

Lemma degenerate_axis_is_reported_nan_witness :
  FRONT (findVectorsMagnitudeInTheOrientation v_345
           {| vUp := v_z; vFront := v_0; vRight := v_y |}) = S754_nan.
Proof.
  apply (degenerate_axis_is_reported_nan v_345
           {| vUp := v_z; vFront := v_0; vRight := v_y |}).
  left. repeat split.
Defined.

(** X10.  A zero measured vector is reported as +0 in the three directions
    when the axes are valid binary32 vectors, finite, with v . v neither
    zero nor NaN. *)
Theorem zero_reading_is_reported_zero (v : Vector) (o : Orientation) :
  zero_vector v ->
  regular_axis (vUp o) -> valid_vector (vUp o) ->
  regular_axis (vFront o) -> valid_vector (vFront o) ->
  regular_axis (vRight o) -> valid_vector (vRight o) ->
  findVectorsMagnitudeInTheOrientation v o
  = {| UP := pzero; FRONT := pzero; RIGHT := pzero |}.
Proof.
  intros Hv Ru Vu Rf Vf Rr Vr.
  unfold findVectorsMagnitudeInTheOrientation,
    findVectorComponentsInTheOrientation; cbn [vUp vFront vRight].
  rewrite !signedMagnitude_zero_vector
    by (apply parallel_component_zero_input; assumption).
  reflexivity.
Qed.

Lemma zero_reading_is_reported_zero_witness :
  findVectorsMagnitudeInTheOrientation v_0
    {| vUp := v_z; vFront := v_x; vRight := v_345 |}
  = {| UP := pzero; FRONT := pzero; RIGHT := pzero |}.
Proof.
  apply (zero_reading_is_reported_zero v_0
           {| vUp := v_z; vFront := v_x; vRight := v_345 |});
    repeat split.
Defined.

(** X11.  rotateVectorThroughAnotherVector returns no finite component
    when the computed magnitude of v1, or that of its local u2, is finite
    and below 1: the unit vector of either is then a division by zero. *)
Theorem rotateThrough_short_inputs (P : Platform) (v1 v2 : Vector) (angle : int) :
  (is_finite (vectorMagnitude v1) = true /\ (SF2Q (vectorMagnitude v1) < 1)%Q) \/
  (is_finite (vectorMagnitude (residual P v1 v2)) = true /\
   (SF2Q (vectorMagnitude (residual P v1 v2)) < 1)%Q) ->
  no_finite_component (rotateVectorThroughAnotherVector P v1 v2 angle).
Proof.
  intros [[Hfin Hlt] | [Hfin Hlt]]; apply rotateThrough_not_finite;
    [left | right]; apply unitVector_small; assumption.
Qed.

Lemma rotateThrough_short_inputs_witness :
  no_finite_component (rotateVectorThroughAnotherVector ref_platform v_half_x v_y 30).
Proof.
  apply (rotateThrough_short_inputs ref_platform v_half_x v_y 30).
  left. split; vm_compute; reflexivity.
Defined.

(** X12.  When u2 computes to the zero vector (v2 along v1), the result of
    rotateVectorThroughAnotherVector is NaN in the three components. *)
Theorem rotateThrough_collinear (P : Platform) (v1 v2 : Vector) (angle : int) :
  zero_vector (residual P v1 v2) ->
  rotateVectorThroughAnotherVector P v1 v2 angle = nan_vector.
Proof.
  intros Hz. rewrite rotateThrough_residual. cbn zeta.
  rewrite (unitVector_zero_vector P _ Hz).
  cbn [X Y Z nan_vector vec]. change (to_double S754_nan) with S754_nan.
  unfold F64.add, F64.mul. rewrite !SFmul_nan_r, !SFadd_nan_r. reflexivity.
Qed.

Lemma rotateThrough_collinear_witness :
  rotateVectorThroughAnotherVector ref_platform v_x v_2_x 45 = nan_vector.
Proof.
  apply (rotateThrough_collinear ref_platform v_x v_2_x 45). repeat split.
Defined.

(** X13.  findOrientation with a zero vUp returns NaN for vFront and
    vRight. *)
Theorem findOrientation_zero_vUp (P : Platform) (vUp0 vUpFront : Vector) :
  zero_vector vUp0 ->
  findOrientation P vUp0 vUpFront
  = {| vUp := vUp0; vFront := nan_vector; vRight := nan_vector |}.
Proof.
  intros Hz. unfold findOrientation.
  rewrite (rotateThrough_nan P vUp0 vUpFront 90 (unitVector_zero_vector P vUp0 Hz)).
  rewrite (rotateAround_nan_parallel P vUp0 nan_vector 90); [reflexivity|].
  apply parallel_component_nan_aux.
  rewrite (dotProduct_nan_r vUp0 nan_vector has_nan_nan_vector). reflexivity.
Qed.

Lemma findOrientation_zero_vUp_witness :
  findOrientation ref_platform v_0 v_345
  = {| vUp := v_0; vFront := nan_vector; vRight := nan_vector |}.
Proof.
  apply (findOrientation_zero_vUp ref_platform v_0 v_345). repeat split.
Defined.

(** X14.  findOrientation with a vUp of computed magnitude below 1 returns
    a vFront without a finite component and a vRight that is NaN
    throughout. *)
Theorem findOrientation_short_vUp_general (P : Platform) (vUp0 vUpFront : Vector) :
  is_finite (vectorMagnitude vUp0) = true ->
  (SF2Q (vectorMagnitude vUp0) < 1)%Q ->
  no_finite_component (vFront (findOrientation P vUp0 vUpFront)) /\
  vRight (findOrientation P vUp0 vUpFront) = nan_vector.
Proof.
  intros Hfin Hlt.
  assert (H : no_finite_component
                (rotateVectorThroughAnotherVector P vUp0 vUpFront 90)).
  { apply rotateThrough_not_finite. left. apply unitVector_small; assumption. }
  unfold findOrientation; cbn [vFront vRight]. split; [exact H|].
  apply rotateAround_nan_parallel, parallel_component_not_finite_axis, H.
Qed.

Lemma findOrientation_short_vUp_general_witness :
  no_finite_component (vFront (findOrientation ref_platform v_half_x v_345)) /\
  vRight (findOrientation ref_platform v_half_x v_345) = nan_vector.
Proof.
  apply (findOrientation_short_vUp_general ref_platform v_half_x v_345);
    vm_compute; reflexivity.
Defined.

(** X15.  Each component of crossProduct(v, v) is +0 or NaN: never a
    non-zero number, never -0. *)
Theorem crossProduct_self (v : Vector) :
  pzero_or_nan (X (crossProduct v v)) /\
  pzero_or_nan (Y (crossProduct v v)) /\
  pzero_or_nan (Z (crossProduct v v)).
Proof.
  unfold crossProduct, F32.sub, F32.mul; cbn [X Y Z].
  rewrite (SFmul_comm _ _ (Z v) (Y v)), (SFmul_comm _ _ (X v) (Z v)),
    (SFmul_comm _ _ (Y v) (X v)).
  repeat split; apply SFsub_diag.
Qed.

(** X16.  subtractVectors(v, v) is the vector of +0 when v is finite, and
    in general each component is +0 or NaN. *)
Theorem subtractVectors_self (v : Vector) :
  (finite_vector v -> subtractVectors v v = v_0) /\
  pzero_or_nan (X (subtractVectors v v)) /\
  pzero_or_nan (Y (subtractVectors v v)) /\
  pzero_or_nan (Z (subtractVectors v v)).
Proof.
  unfold subtractVectors, F32.sub; cbn [X Y Z].
  split; [|repeat split; apply SFsub_diag].
  intros (Fx & Fy & Fz). rewrite !SFsub_diag_finite by assumption. reflexivity.
Qed.

Lemma subtractVectors_self_witness : subtractVectors v_345 v_345 = v_0.
Proof.
  apply (subtractVectors_self v_345). repeat split.
Defined.

(** X17.  subtractVectors(v1, v2) is the negation of subtractVectors(v2,
    v1), component by component, as numbers (zeros may differ in sign). *)
Theorem subtractVectors_antisymmetric (v1 v2 : Vector) :
  same_number (X (subtractVectors v1 v2)) (F32.opp (X (subtractVectors v2 v1))) /\
  same_number (Y (subtractVectors v1 v2)) (F32.opp (Y (subtractVectors v2 v1))) /\
  same_number (Z (subtractVectors v1 v2)) (F32.opp (Z (subtractVectors v2 v1))).
Proof.
  unfold subtractVectors, F32.sub, F32.opp; cbn [X Y Z].
  repeat split; apply SFsub_antisym.
Qed.

Lemma signedMagnitude_sign (axis c : Vector) :
  signedMagnitude axis c = S754_nan \/
  sign_clear (signedMagnitude axis c) = negb (isVectorsInOppositeDirection axis c).
Proof.
  unfold signedMagnitude.
  pose proof (convert_sign_clear F32.prec F32.emax _ (vectorMagnitude_sign_clear c)) as H.
  fold (to_float (vectorMagnitude c)) in H.
  destruct (isVectorsInOppositeDirection axis c).
  - destruct (to_float (vectorMagnitude c)) as [[|]|[|]| |[|] m e];
      try discriminate; auto.
  - right. exact H.
Qed.

(** X18.  In each direction the magnitude reported by
    findVectorsMagnitudeInTheOrientation is NaN, or has its sign bit set
    exactly when the component is in the opposite direction to the axis. *)
Theorem reported_sign_is_opposite_direction (v : Vector) (o : Orientation) :
  let c := findVectorComponentsInTheOrientation v o in
  let g := findVectorsMagnitudeInTheOrientation v o in
  (UP g = S754_nan \/
   sign_clear (UP g) = negb (isVectorsInOppositeDirection (vUp o) (vUp c))) /\
  (FRONT g = S754_nan \/
   sign_clear (FRONT g) = negb (isVectorsInOppositeDirection (vFront o) (vFront c))) /\
  (RIGHT g = S754_nan \/
   sign_clear (RIGHT g) = negb (isVectorsInOppositeDirection (vRight o) (vRight c))).
Proof.
  cbn zeta. unfold findVectorsMagnitudeInTheOrientation; cbn [UP FRONT RIGHT].
  repeat split; apply signedMagnitude_sign.
Qed.

Lemma unitVector_has_nan (P : Platform) (v : Vector) :
  has_nan v -> has_nan (unitVector P v).
Proof.
  unfold has_nan, unitVector; cbn [X Y Z].
  intros [H | [H | H]]; rewrite H; auto.
Qed.

Lemma rotateThrough_nan_c1 (P : Platform) (v1 v2 : Vector) (angle : int) :
  dotProduct v2 (unitVector P v1) = S754_nan ->
  rotateVectorThroughAnotherVector P v1 v2 angle = nan_vector.
Proof.
  intros H.
  assert (Hr : residual P v1 v2 = nan_vector).
  { unfold residual. rewrite H. unfold F64.sub, F64.mul.
    rewrite !SFmul_nan_l, !SFsub_nan_r. reflexivity. }
  rewrite rotateThrough_residual, Hr. cbn zeta. rewrite unitVector_nan.
  cbn [X Y Z nan_vector vec]. change (to_double S754_nan) with S754_nan.
  unfold F64.add, F64.mul. rewrite !SFmul_nan_r, !SFadd_nan_r. reflexivity.
Qed.

(** X19.  A NaN component in either input makes the result of both
    rotations NaN in the three components, for every angle and
    platform. *)
Theorem rotations_propagate_nan (P : Platform) (v1 v2 : Vector) (angle : int) :
  has_nan v1 \/ has_nan v2 ->
  rotateVectorThroughAnotherVector P v1 v2 angle = nan_vector /\
  rotateVectorAroundAnotherVector P v1 v2 angle = nan_vector.
Proof.
  intros H. split.
  - apply rotateThrough_nan_c1. destruct H as [H | H].
    + apply dotProduct_nan_r, unitVector_has_nan, H.
    + apply dotProduct_nan_l, H.
  - apply rotateAround_nan_parallel, parallel_component_nan_aux.
    destruct H as [H | H].
    + rewrite (dotProduct_nan_l v1 v2 H). reflexivity.
    + rewrite (dotProduct_nan_r v1 v2 H). reflexivity.
Qed.

Lemma rotations_propagate_nan_witness :
  rotateVectorThroughAnotherVector ref_platform v_345 (vec pzero S754_nan pzero) 10
  = nan_vector /\
  rotateVectorAroundAnotherVector ref_platform v_345 (vec pzero S754_nan pzero) 10
  = nan_vector.
Proof.
  apply (rotations_propagate_nan ref_platform v_345 (vec pzero S754_nan pzero) 10).
  right. right. left. reflexivity.
Defined.

(** X20.  findOrientation with a NaN component in vUp or in vUpFront
    returns NaN for vFront and vRight. *)
Theorem findOrientation_propagates_nan (P : Platform) (vUp0 vUpFront : Vector) :
  has_nan vUp0 \/ has_nan vUpFront ->
  vFront (findOrientation P vUp0 vUpFront) = nan_vector /\
  vRight (findOrientation P vUp0 vUpFront) = nan_vector.
Proof.
  intros H. unfold findOrientation; cbn [vFront vRight].
  assert (Hf : rotateVectorThroughAnotherVector P vUp0 vUpFront 90 = nan_vector).
  { apply rotateThrough_nan_c1. destruct H as [H | H].
    - apply dotProduct_nan_r, unitVector_has_nan, H.
    - apply dotProduct_nan_l, H. }
  split; [exact Hf|]. rewrite Hf.
  apply rotateAround_nan_parallel, parallel_component_nan_aux.
  rewrite (dotProduct_nan_r vUp0 nan_vector has_nan_nan_vector). reflexivity.
Qed.

Lemma findOrientation_propagates_nan_witness :
  vFront (findOrientation ref_platform v_z (vec S754_nan pzero pzero)) = nan_vector /\
  vRight (findOrientation ref_platform v_z (vec S754_nan pzero pzero)) = nan_vector.
Proof.
  apply (findOrientation_propagates_nan ref_platform v_z (vec S754_nan pzero pzero)).
  right. left. reflexivity.
Defined.

Lemma div_eucl_div_mod (a b : int) : Z.div_eucl a b = (a / b, a mod b).
Proof. unfold Z.div, Z.modulo. destruct (Z.div_eucl a b). reflexivity. Qed.

(** Division of a valid binary32 number by 1 is exact. *)
Lemma div_one (x : float32) :
  valid_binary F32.prec F32.emax x = true -> F32.div x (F32.of_int 1) = x.
Proof.
  change (F32.of_int 1) with (S754_finite false 8388608 (-23)).
  destruct x as [[|]|[|]| |s m e]; try reflexivity.
  intros Hv. unfold valid_binary, bounded, canonical_mantissa in Hv.
  apply andb_true_iff in Hv. destruct Hv as [Hc He].
  apply Z.eqb_eq in Hc. apply Z.leb_le in He.
  unfold fexp, emin, F32.prec, F32.emax in Hc, He.
  set (d := Zpos (digits2_pos m)) in *.
  assert (Hd : 0 < d) by (unfold d; lia).
  unfold F32.div, SFdiv, SFdiv_core_binary.
  rewrite xorb_false_r.
  change (Zdigits2 (Zpos 8388608)) with 24. cbn [Zdigits2]. fold d.
  destruct (Z.eq_dec e (-149)) as [-> | Hne].
  - replace (Z.min (fexp F32.prec F32.emax (d + -149 - (24 + -23))) (-149 - -23))
      with (-149) by (unfold fexp, emin, F32.prec, F32.emax; lia).
    change (-149 - -23 - -149) with 23.
    rewrite Z.shiftl_mul_pow2 by lia.
    rewrite div_eucl_div_mod.
    change (Zpos 8388608) with (2 ^ 23).
    rewrite Z.div_mul, Z.mod_mul by lia.
    change (new_location (2 ^ 23) 0) with loc_Exact.
    unfold binary_round_aux, shr_fexp. cbn [Zdigits2]. fold d.
    replace (fexp F32.prec F32.emax (d + -149) - -149) with 0
      by (unfold fexp, emin, F32.prec, F32.emax; lia).
    cbn [shr shr_record_of_loc shr_m loc_of_shr_record round_nearest_even Zdigits2].
    fold d.
    replace (fexp F32.prec F32.emax (d + -149) - -149) with 0
      by (unfold fexp, emin, F32.prec, F32.emax; lia).
    reflexivity.
  - assert (Hd24 : d = 24) by lia.
    replace (Z.min (fexp F32.prec F32.emax (d + e - (24 + -23))) (e - -23))
      with (e - 1) by (unfold fexp, emin, F32.prec, F32.emax; lia).
    replace (e - -23 - (e - 1)) with 24 by lia.
    rewrite Z.shiftl_mul_pow2 by lia.
    rewrite div_eucl_div_mod.
    change (Zpos 8388608) with (2 ^ 23).
    replace (Zpos m * 2 ^ 24) with (Zpos m~0 * 2 ^ 23) by lia.
    rewrite Z.div_mul, Z.mod_mul by lia.
    change (new_location (2 ^ 23) 0) with loc_Exact.
    unfold binary_round_aux, shr_fexp. cbn [Zdigits2 digits2_pos].
    rewrite Pos2Z.inj_succ. fold d.
    replace (fexp F32.prec F32.emax (Z.succ d + (e - 1)) - (e - 1)) with 1
      by (unfold fexp, emin, F32.prec, F32.emax; lia).
    cbn [shr shr_record_of_loc iter_pos shr_1 orb shr_m loc_of_shr_record
         round_nearest_even Zdigits2].
    fold d.
    replace (e - 1 + 1) with e by lia.
    replace (fexp F32.prec F32.emax (d + e) - e) with 0
      by (unfold fexp, emin, F32.prec, F32.emax; lia).
    cbn [shr shr_record_of_loc shr_m].
    replace (e <=? F32.emax - F32.prec) with true
      by (symmetry; apply Z.leb_le; unfold F32.emax, F32.prec; lia).
    reflexivity.
Qed.

(** X21.  unitVector returns a valid vector unchanged whenever its computed
    magnitude is finite, at least 1 and below 2: the truncated divisor is
    1. *)
Theorem unitVector_identity_from_1_to_2 (P : Platform) (v : Vector) :
  valid_vector v ->
  is_finite (vectorMagnitude v) = true ->
  (1 <= SF2Q (vectorMagnitude v))%Q ->
  (SF2Q (vectorMagnitude v) < 2)%Q ->
  unitVector P v = v.
Proof.
  intros (Vx & Vy & Vz) Hfin Hge Hlt. rewrite unitVector_divided_by.
  pose proof (vectorMagnitude_not_negative v) as Hneg.
  assert (Hfl : Qfloor (SF2Q (vectorMagnitude v)) = 1).
  { apply Qfloor_resp_le in Hge. change (Qfloor 1) with 1 in Hge.
    assert (Qfloor (SF2Q (vectorMagnitude v)) < 2); [|lia].
    rewrite Zlt_Qlt. eapply Qle_lt_trans; [apply Qfloor_le | exact Hlt]. }
  unfold to_int. rewrite (integral_part_floor _ Hfin Hneg), Hfl.
  cbn [Z.leb andb]. change ((INT_MIN <=? 1) && (1 <=? INT_MAX)) with true.
  cbv iota. unfold divided_by. rewrite !div_one by assumption.
  destruct v; reflexivity.
Qed.

Lemma unitVector_identity_from_1_to_2_witness :
  unitVector ref_platform v_1_half_quarter = v_1_half_quarter.
Proof.
  apply (unitVector_identity_from_1_to_2 ref_platform v_1_half_quarter).
  - repeat split.
  - reflexivity.
  - vm_compute. discriminate.
  - vm_compute. reflexivity.
Defined.
